(** * db.c: a type-size diagnostic

    The program under study is the single translation unit [src/db.c]:
    an entry point that performs four formatted-output calls, each
    reporting [sizeof] of one type, and returns 0.

    The development is organised as follows.
    - [Platform]: the implementation-defined quantities the program
      depends on (byte width, object sizes), and what the C standard
      requires of them.
    - [Stdio]: the C library: format strings, the [%zu] conversion and
      the standard output stream, which the program uses, and the
      services it could use and does not.
    - [Db]: the program itself, as a finite tree of library calls.
    - Theorems about [Db.main]. *)

From Stdlib Require Import ZArith NArith List String Ascii Bool Lia.
From Stdlib Require Import DecimalString DecimalFacts DecimalN.
Import ListNotations.

Open Scope string_scope.

(** C's [int], and [size_t], the type of a [sizeof] expression.  No
    arithmetic is performed on either by the program, so neither needs a
    wrap-around. *)
Definition int : Type := Z.
Definition size_t : Type := N.

(* ================================================================== *)
(** ** The target platform *)

Module Platform.

(** The types whose size the program asks for. *)
Inductive ctype : Type :=
| Tint
| Tuint8_t
| Tuint32_t
| Tpointer (pointee : ctype).

(** Object representation of an integer type: [width] counts the value
    bits and the sign bit, [padding] the padding bits, [size] is the
    result of [sizeof], in bytes. *)
Record layout : Type := {
  width : N;
  padding : N;
  size : size_t
}.

(** What a compiler fixes for a target.  The two typedefs of
    [<stdint.h>] are optional in C; a [platform] is a target that
    provides them, that is, one on which db.c compiles. *)
Record platform : Type := {
  CHAR_BIT : N;
  int_layout : layout;
  uint8_layout : layout;
  uint32_layout : layout;
  pointer_size : ctype -> size_t
}.

Definition sizeof (p : platform) (t : ctype) : size_t :=
  match t with
  | Tint => size (int_layout p)
  | Tuint8_t => size (uint8_layout p)
  | Tuint32_t => size (uint32_layout p)
  | Tpointer pointee => pointer_size p pointee
  end.

(** An object of [size] bytes is made of [size * CHAR_BIT] bits, each a
    value, sign or padding bit. *)
Definition fills (char_bit : N) (l : layout) : Prop :=
  (size l * char_bit = width l + padding l)%N.

(** The requirements of the C standard that bear on the four sizes:
    a byte has at least 8 bits, [int] at least 16, [uintN_t] has width
    exactly N and no padding bits, and no object is empty. *)
Record conforming (p : platform) : Prop := {
  char_bit_min : (8 <= CHAR_BIT p)%N;
  int_fills : fills (CHAR_BIT p) (int_layout p);
  int_width_min : (16 <= width (int_layout p))%N;
  uint8_fills : fills (CHAR_BIT p) (uint8_layout p);
  uint8_width : width (uint8_layout p) = 8%N;
  uint8_padding : padding (uint8_layout p) = 0%N;
  uint32_fills : fills (CHAR_BIT p) (uint32_layout p);
  uint32_width : width (uint32_layout p) = 32%N;
  uint32_padding : padding (uint32_layout p) = 0%N;
  pointer_size_pos : forall t, (1 <= pointer_size p t)%N
}.

(** An integer type of [bits] bits without padding, on 8-bit bytes. *)
Definition unpadded (bits : N) : layout :=
  {| width := bits; padding := 0; size := (bits / 8)%N |}.

(** The data model of 64-bit Unix-like systems: 32-bit [int], 64-bit
    pointers, 8-bit bytes. *)
Definition lp64 : platform := {|
  CHAR_BIT := 8;
  int_layout := unpadded 32;
  uint8_layout := unpadded 8;
  uint32_layout := unpadded 32;
  pointer_size := fun _ => 8%N
|}.

(** The data model of 32-bit systems: 32-bit pointers. *)
Definition ilp32 : platform := {|
  CHAR_BIT := 8;
  int_layout := unpadded 32;
  uint8_layout := unpadded 8;
  uint32_layout := unpadded 32;
  pointer_size := fun _ => 4%N
|}.

End Platform.

(* ================================================================== *)
(** ** The C library's formatted output *)

Module Stdio.

Definition LF : ascii := "010"%char.
Definition TAB : ascii := "009"%char.
Definition backslash : ascii := "092"%char.
Definition percent : ascii := "037"%char.

(** The character an escape sequence of a C literal stands for. *)
Definition escape (c : ascii) : ascii :=
  if Ascii.eqb c "n"%char then LF
  else if Ascii.eqb c "t"%char then TAB
  else if Ascii.eqb c "0"%char then zero
  else c.

(** [c_str s] is the value of the C string literal whose source text is
    [s], so that the format strings below can be written as in db.c. *)
Fixpoint c_str (s : string) : string :=
  match s with
  | EmptyString => EmptyString
  | String c r =>
      if Ascii.eqb c backslash then
        match r with
        | EmptyString => EmptyString
        | String e r' => String (escape e) (c_str r')
        end
      else String c (c_str r)
  end.

(** The [%zu] conversion: a [size_t] in decimal, no sign, no padding. *)
Definition decimal (n : size_t) : string :=
  NilEmpty.string_of_uint (N.to_uint n).

(** The text a format string denotes for given arguments: ordinary
    characters stand for themselves, [%zu] consumes one argument,
    [%%] is a percent sign.  Any other directive, or a missing argument,
    is undefined behaviour in C and yields [None] here. *)
Fixpoint vformat (fmt : string) (args : list size_t) : option string :=
  match fmt with
  | EmptyString => Some EmptyString
  | String c r =>
      if Ascii.eqb c percent then
        match r with
        | String "z"%char (String "u"%char r') =>
            match args with
            | a :: args' => option_map (append (decimal a)) (vformat r' args')
            | [] => None
            end
        | String "%"%char r' => option_map (String percent) (vformat r' args)
        | _ => None
        end
      else option_map (String c) (vformat r args)
  end.

(** The other services of a hosted C library through which a program
    can consult or change its environment: [getenv], reading standard
    input, reading and writing a file, the clock and the random number
    generator.  db.c calls none of them; they are what a statement that
    it does not must be able to tell apart. *)
Inductive request : Type :=
| Getenv (name : string)
| Getchar
| Fread (path : string)
| Fwrite (path : string) (data : string)
| Time
| Rand.

Inductive reply : Type :=
| Rint (n : int)
| Rstring (s : option string).

(** Programs over the library: a finite tree whose nodes are calls of
    [printf] or of another service, and whose leaves are results.  The
    continuation of a call receives what the call returned. *)
Inductive prog (R : Type) : Type :=
| Ret (r : R)
| Printf (fmt : string) (args : list size_t) (k : int -> prog R)
| Lib (q : request) (k : reply -> prog R).

Arguments Ret {R} r.
Arguments Printf {R} fmt args k.
Arguments Lib {R} q k.

Fixpoint bind {A B : Type} (m : prog A) (f : A -> prog B) : prog B :=
  match m with
  | Ret a => f a
  | Printf fmt args k => Printf fmt args (fun r => bind (k r) f)
  | Lib q k => Lib q (fun r => bind (k r) f)
  end.

Definition printf (fmt : string) (args : list size_t) : prog int :=
  Printf fmt args Ret.

(** An implementation of the library over some state [W]: what a call
    returns and how it changes the state, for [printf] and for the other
    services.  Nothing is assumed of it. *)
Record handler (W : Type) : Type := {
  on_printf : string -> list size_t -> W -> int * W;
  on_request : request -> W -> reply * W
}.

Arguments on_printf {W} h fmt args w.
Arguments on_request {W} h q w.

(** Running a program against an implementation. *)
Fixpoint exec {W R : Type} (h : handler W) (t : prog R) (w : W) : R * W :=
  match t with
  | Ret r => (r, w)
  | Printf fmt args k =>
      let (r, w') := on_printf h fmt args w in exec h (k r) w'
  | Lib q k =>
      let (r, w') := on_request h q w in exec h (k r) w'
  end.

(** The calls of [printf] performed during a run, in order, each with
    the value it returned to the program. *)
Record call : Type := {
  call_fmt : string;
  call_args : list size_t;
  call_ret : int
}.

Fixpoint calls {W R : Type} (h : handler W) (t : prog R) (w : W) : list call :=
  match t with
  | Ret _ => []
  | Printf fmt args k =>
      let (r, w') := on_printf h fmt args w in
      {| call_fmt := fmt; call_args := args; call_ret := r |} :: calls h (k r) w'
  | Lib q k =>
      let (r, w') := on_request h q w in calls h (k r) w'
  end.

(** The calls of the other services performed during a run, in order. *)
Fixpoint requests {W R : Type} (h : handler W) (t : prog R) (w : W)
  : list request :=
  match t with
  | Ret _ => []
  | Printf fmt args k =>
      let (r, w') := on_printf h fmt args w in requests h (k r) w'
  | Lib q k =>
      let (r, w') := on_request h q w in q :: requests h (k r) w'
  end.

(** The texts handed to the output facility during a run, in order,
    whatever the facility then does with them. *)
Definition submitted {W R : Type} (h : handler W) (t : prog R) (w : W)
  : list (option string) :=
  map (fun c => vformat (call_fmt c) (call_args c)) (calls h t w).

(** The values the calls of a run returned. *)
Definition returned {W R : Type} (h : handler W) (t : prog R) (w : W)
  : list int :=
  map call_ret (calls h t w).

(** Two implementations whose [printf] acts alike on the state and
    differs at most in what it returns to the caller. *)
Definition same_effect {W : Type} (h1 h2 : handler W) : Prop :=
  forall fmt args w,
    snd (on_printf h1 fmt args w) = snd (on_printf h2 fmt args w).

(** Every path of the tree performs exactly [n] calls, all of them of
    [printf]. *)
Fixpoint straight_line {R : Type} (n : nat) (t : prog R) : Prop :=
  match t, n with
  | Ret _, O => True
  | Printf _ _ k, S n' => forall r, straight_line n' (k r)
  | _, _ => False
  end.

(** The process environment.  [ambient] is everything a program could
    consult or change besides its standard output. *)
Record ambient : Type := {
  stdin : string;
  environ : list (string * string);
  files : list (string * string);
  clock : Z;
  entropy : list bool
}.

(** [stdout] holds the bytes delivered so far; a stream that is not open
    accepts nothing. *)
Record world : Type := {
  stdout_open : bool;
  stdout : string;
  outside : ambient
}.

Definition EOF : int := (-1)%Z.

Definition write_stdout (s : string) (w : world) : int * world :=
  if stdout_open w
  then (Z.of_nat (String.length s),
        {| stdout_open := true; stdout := stdout w ++ s; outside := outside w |})
  else (EOF, w).

(** [printf] of a hosted implementation: the number of characters
    transmitted, or a negative value when nothing could be written. *)
Definition hosted_printf (fmt : string) (args : list size_t) (w : world)
  : int * world :=
  match vformat fmt args with
  | Some s => write_stdout s w
  | None => (EOF, w)
  end.

Fixpoint lookup (key : string) (table : list (string * string))
  : option string :=
  match table with
  | [] => None
  | (k, v) :: rest => if String.eqb key k then Some v else lookup key rest
  end.

Definition with_outside (w : world) (a : ambient) : world :=
  {| stdout_open := stdout_open w; stdout := stdout w; outside := a |}.

(** The other services of a hosted implementation: each consults or
    changes the part of the environment it is about, and leaves
    standard output alone. *)
Definition hosted_request (q : request) (w : world) : reply * world :=
  let a := outside w in
  match q with
  | Getenv name => (Rstring (lookup name (environ a)), w)
  | Getchar =>
      match stdin a with
      | EmptyString => (Rint EOF, w)
      | String c rest =>
          (Rint (Z.of_nat (nat_of_ascii c)),
           with_outside w
             {| stdin := rest; environ := environ a; files := files a;
                clock := clock a; entropy := entropy a |})
      end
  | Fread path => (Rstring (lookup path (files a)), w)
  | Fwrite path data =>
      (Rint (Z.of_nat (String.length data)),
       with_outside w
         {| stdin := stdin a; environ := environ a;
            files := (path, data) :: files a;
            clock := clock a; entropy := entropy a |})
  | Time => (Rint (clock a), w)
  | Rand =>
      match entropy a with
      | [] => (Rint 0%Z, w)
      | b :: rest =>
          (Rint (if b then 1%Z else 0%Z),
           with_outside w
             {| stdin := stdin a; environ := environ a; files := files a;
                clock := clock a; entropy := rest |})
      end
  end.

Definition hosted : handler world :=
  {| on_printf := hosted_printf; on_request := hosted_request |}.

(** Reading the output back: the lines of a text, and the number that
    follows the equals sign of a line. *)
Fixpoint lines (s : string) : list string :=
  match s with
  | EmptyString => []
  | String c r =>
      if Ascii.eqb c LF then EmptyString :: lines r
      else match lines r with
           | [] => [String c EmptyString]
           | l :: ls => String c l :: ls
           end
  end.

Fixpoint after_equals (s : string) : option string :=
  match s with
  | EmptyString => None
  | String c r =>
      if Ascii.eqb c "="%char then
        match r with
        | String " "%char r' => Some r'
        | _ => None
        end
      else after_equals r
  end.

Definition scan_size (line : string) : option size_t :=
  match after_equals line with
  | Some digits => option_map N.of_uint (NilEmpty.uint_of_string digits)
  | None => None
  end.

Fixpoint no_newline (s : string) : bool :=
  match s with
  | EmptyString => true
  | String c r => negb (Ascii.eqb c LF) && no_newline r
  end.

Definition is_digit (c : ascii) : bool :=
  (48 <=? nat_of_ascii c)%nat && (nat_of_ascii c <=? 57)%nat.

Fixpoint all_digits (s : string) : bool :=
  match s with
  | EmptyString => true
  | String c r => is_digit c && all_digits r
  end.

Definition is_number (s : string) : bool :=
  match s with
  | EmptyString => false
  | _ => all_digits s
  end.

End Stdio.

(* ================================================================== *)
(** ** The program *)

Module Db.

Import Platform Stdio.

Notation "c ;; k" := (bind c (fun _ => k))
  (at level 61, right associativity).

Definition EXIT_SUCCESS : int := 0%Z.

Section Main.

Variable target : platform.

Definition main (argc : int) (argv : list string) : prog int :=
  printf (c_str "sizeof(int) = %zu\n") [sizeof target Tint] ;;
  printf (c_str "sizeof(int*) = %zu\n") [sizeof target (Tpointer Tint)] ;;
  printf (c_str "sizeof(uint8_t) = %zu\n") [sizeof target Tuint8_t] ;;
  printf (c_str "sizeof(uint32_t) = %zu\n") [sizeof target Tuint32_t] ;;
  Ret 0%Z.

(** A process: [main] run on a hosted implementation; the exit status is
    what [main] returns. *)
Definition run (argc : int) (argv : list string) (w : world) : int * world :=
  exec hosted (main argc argv) w.

(** The report the program is meant to produce, stated independently of
    [printf]: one line per type. *)
Definition size_line (type_name : string) (n : size_t) : string :=
  "sizeof(" ++ type_name ++ ") = " ++ decimal n ++ String LF EmptyString.

Definition report : string :=
  size_line "int" (sizeof target Tint) ++
  size_line "int*" (sizeof target (Tpointer Tint)) ++
  size_line "uint8_t" (sizeof target Tuint8_t) ++
  size_line "uint32_t" (sizeof target Tuint32_t).

End Main.

(** A line of the form [sizeof(T) = <N>], where <N> is a decimal
    numeral. *)
Definition line_of_form (type_name line : string) : Prop :=
  exists digits : string,
    is_number digits = true /\ line = "sizeof(" ++ type_name ++ ") = " ++ digits.

(** Worlds used to exercise the theorems. *)
Definition quiet : ambient :=
  {| stdin := ""; environ := []; files := []; clock := 0; entropy := [] |}.

Definition busy : ambient :=
  {| stdin := "select 1";
     environ := [("HOME", "/root"); ("LANG", "C")];
     files := [("test.db", "page0")];
     clock := 1700000000;
     entropy := [true; false; true] |}.

Definition fresh : world :=
  {| stdout_open := true; stdout := ""; outside := quiet |}.

Definition fresh_busy : world :=
  {| stdout_open := true; stdout := ""; outside := busy |}.

Definition closed : world :=
  {| stdout_open := false; stdout := ""; outside := quiet |}.

(** A library on which every call fails and has no effect, and one
    whose [printf] has no effect either and reports success. *)
Definition failing : handler world :=
  {| on_printf := fun _ _ w => (EOF, w);
     on_request := fun _ w => (Rint EOF, w) |}.

Definition boasting : handler world :=
  {| on_printf := fun _ _ w => (7%Z, w);
     on_request := fun _ w => (Rint EOF, w) |}.

(** Two programs over the same library that are not db.c: one writes a
    file, the other prints the time.  They tell what is proved of [main]
    from what would hold of any program. *)
Definition writes_file : prog int :=
  Lib (Fwrite "test.db" "page0") (fun _ => Ret 0%Z).

Definition prints_time : prog int :=
  Lib Time (fun r =>
    match r with
    | Rint t => Printf "%zu" [Z.to_N t] (fun _ => Ret 0%Z)
    | Rstring _ => Ret 1%Z
    end).

Definition nl : string := String LF EmptyString.

Definition no_args : list string := ["./db"].
Definition some_args : list string := ["prog"; "a"; "b"; "c"].

End Db.

Import Platform Stdio Db.

(** Name the result of every call of the output facility in the goal. *)
Ltac call_results :=
  repeat match goal with
         | |- context [ on_printf ?h ?fmt ?args ?w ] =>
             destruct (on_printf h fmt args w)
         end.

(* ================================================================== *)
(** ** Strings, lines and decimal numerals *)

Lemma append_assoc (a b c : string) : (a ++ b) ++ c = a ++ b ++ c.
Proof.
  induction a as [|x a IH]; simpl; [reflexivity | now rewrite IH].
Qed.

Lemma append_nil_r (a : string) : a ++ "" = a.
Proof.
  induction a as [|x a IH]; simpl; [reflexivity | now rewrite IH].
Qed.

Lemma digit_not_newline (c : ascii) : is_digit c = true -> Ascii.eqb c LF = false.
Proof.
  unfold is_digit. intros H.
  apply andb_true_iff in H as [lo _]. apply Nat.leb_le in lo.
  apply Ascii.eqb_neq. intros ->. vm_compute in lo. lia.
Qed.

Lemma all_digits_no_newline (s : string) :
  all_digits s = true -> no_newline s = true.
Proof.
  induction s as [|c s IH]; simpl; [reflexivity|].
  intros H. apply andb_true_iff in H as [Hc Hs].
  now rewrite (digit_not_newline c Hc), (IH Hs).
Qed.

Lemma no_newline_app (a b : string) :
  no_newline (a ++ b) = no_newline a && no_newline b.
Proof.
  induction a as [|c a IH]; simpl; [reflexivity|].
  now rewrite IH, andb_assoc.
Qed.

(** A text that starts with a newline-free part followed by a newline
    has that part as its first line. *)
Lemma lines_cons (l rest : string) :
  no_newline l = true -> lines (l ++ String LF rest) = l :: lines rest.
Proof.
  induction l as [|c l IH]; simpl.
  - intros _. reflexivity.
  - intros H. apply andb_true_iff in H as [Hc Hl].
    apply negb_true_iff in Hc. rewrite Hc, (IH Hl). reflexivity.
Qed.

Lemma string_of_uint_digits (d : Decimal.uint) :
  all_digits (NilEmpty.string_of_uint d) = true.
Proof.
  induction d; simpl; auto.
Qed.

Lemma to_uint_nonnil (n : N) : N.to_uint n <> Decimal.Nil.
Proof.
  rewrite <- (Unsigned.of_to n) at 1. rewrite Unsigned.to_of.
  apply unorm_nonnil.
Qed.

(** [%zu] prints at least one character, and only decimal digits. *)
Lemma decimal_is_number (n : size_t) : is_number (decimal n) = true.
Proof.
  unfold decimal, is_number.
  pose proof (to_uint_nonnil n) as Hn.
  pose proof (string_of_uint_digits (N.to_uint n)) as Hd.
  destruct (N.to_uint n); simpl in *; congruence.
Qed.

Lemma decimal_all_digits (n : size_t) : all_digits (decimal n) = true.
Proof.
  apply string_of_uint_digits.
Qed.

Lemma decimal_no_newline (n : size_t) : no_newline (decimal n) = true.
Proof.
  apply all_digits_no_newline, decimal_all_digits.
Qed.

(** Reading a printed number back gives the number. *)
Lemma scan_decimal (n : size_t) :
  option_map N.of_uint (NilEmpty.uint_of_string (decimal n)) = Some n.
Proof.
  unfold decimal. rewrite NilEmpty.usu. simpl. now rewrite Unsigned.of_to.
Qed.

(* ================================================================== *)
(** ** The four calls *)

Lemma vformat_int (n : size_t) :
  vformat (c_str "sizeof(int) = %zu\n") [n] = Some (size_line "int" n).
Proof. reflexivity. Qed.

Lemma vformat_int_ptr (n : size_t) :
  vformat (c_str "sizeof(int*) = %zu\n") [n] = Some (size_line "int*" n).
Proof. reflexivity. Qed.

Lemma vformat_uint8_t (n : size_t) :
  vformat (c_str "sizeof(uint8_t) = %zu\n") [n] = Some (size_line "uint8_t" n).
Proof. reflexivity. Qed.

Lemma vformat_uint32_t (n : size_t) :
  vformat (c_str "sizeof(uint32_t) = %zu\n") [n] = Some (size_line "uint32_t" n).
Proof. reflexivity. Qed.

(** [main], with the sequencing notation unfolded: each continuation
    ignores the value its call returned. *)
Lemma main_tree (p : platform) (argc : int) (argv : list string) :
  main p argc argv =
  Printf (c_str "sizeof(int) = %zu\n") [sizeof p Tint] (fun _ =>
  Printf (c_str "sizeof(int*) = %zu\n") [sizeof p (Tpointer Tint)] (fun _ =>
  Printf (c_str "sizeof(uint8_t) = %zu\n") [sizeof p Tuint8_t] (fun _ =>
  Printf (c_str "sizeof(uint32_t) = %zu\n") [sizeof p Tuint32_t] (fun _ =>
  Ret 0%Z)))).
Proof. reflexivity. Qed.

Lemma write_stdout_open (s out : string) (a : ambient) :
  write_stdout s {| stdout_open := true; stdout := out; outside := a |} =
  (Z.of_nat (String.length s),
   {| stdout_open := true; stdout := out ++ s; outside := a |}).
Proof. reflexivity. Qed.

Lemma write_stdout_closed (s out : string) (a : ambient) :
  write_stdout s {| stdout_open := false; stdout := out; outside := a |} =
  (EOF, {| stdout_open := false; stdout := out; outside := a |}).
Proof. reflexivity. Qed.

(** The run on an open stream: the report is appended, nothing else
    changes. *)
Lemma run_open (p : platform) (argc : int) (argv : list string)
    (out : string) (a : ambient) :
  run p argc argv {| stdout_open := true; stdout := out; outside := a |} =
  (EXIT_SUCCESS,
   {| stdout_open := true; stdout := out ++ report p; outside := a |}).
Proof.
  unfold run. rewrite main_tree. cbn [exec hosted on_printf]. unfold hosted_printf.
  rewrite vformat_int, write_stdout_open.
  rewrite vformat_int_ptr, write_stdout_open.
  rewrite vformat_uint8_t, write_stdout_open.
  rewrite vformat_uint32_t, write_stdout_open.
  unfold report. now rewrite !append_assoc.
Qed.

(** The run on a closed stream: nothing changes at all. *)
Lemma run_closed (p : platform) (argc : int) (argv : list string)
    (out : string) (a : ambient) :
  run p argc argv {| stdout_open := false; stdout := out; outside := a |} =
  (EXIT_SUCCESS, {| stdout_open := false; stdout := out; outside := a |}).
Proof.
  unfold run. rewrite main_tree. cbn [exec hosted on_printf]. unfold hosted_printf.
  rewrite vformat_int, write_stdout_closed.
  rewrite vformat_int_ptr, write_stdout_closed.
  rewrite vformat_uint8_t, write_stdout_closed.
  rewrite vformat_uint32_t, write_stdout_closed.
  reflexivity.
Qed.

Example report_lp64 :
  stdout (snd (run lp64 1%Z no_args fresh)) =
  c_str "sizeof(int) = 4\nsizeof(int*) = 8\nsizeof(uint8_t) = 1\nsizeof(uint32_t) = 4\n".
Proof. reflexivity. Qed.

(* ================================================================== *)
(** ** Runs against an arbitrary output facility *)

Lemma exec_main_status {W : Type} (h : handler W) (p : platform)
    (argc : int) (argv : list string) (w : W) :
  fst (exec h (main p argc argv) w) = EXIT_SUCCESS.
Proof.
  rewrite main_tree. cbn [exec]. call_results. reflexivity.
Qed.

Lemma main_straight_line (p : platform) (argc : int) (argv : list string) :
  straight_line 4 (main p argc argv).
Proof.
  rewrite main_tree. cbn [straight_line]. intros _ _ _ _. exact I.
Qed.

Lemma main_four_calls {W : Type} (h : handler W) (p : platform)
    (argc : int) (argv : list string) (w : W) :
  List.length (calls h (main p argc argv) w) = 4%nat.
Proof.
  rewrite main_tree. cbn [calls]. call_results. reflexivity.
Qed.

Lemma main_submitted {W : Type} (h : handler W) (p : platform)
    (argc : int) (argv : list string) (w : W) :
  submitted h (main p argc argv) w =
  [ Some (size_line "int" (sizeof p Tint));
    Some (size_line "int*" (sizeof p (Tpointer Tint)));
    Some (size_line "uint8_t" (sizeof p Tuint8_t));
    Some (size_line "uint32_t" (sizeof p Tuint32_t)) ].
Proof.
  unfold submitted. rewrite main_tree. cbn [calls]. call_results.
  cbn [map call_fmt call_args].
  now rewrite vformat_int, vformat_int_ptr, vformat_uint8_t, vformat_uint32_t.
Qed.

Lemma main_ignores_args (p : platform) (argc argc' : int)
    (argv argv' : list string) :
  main p argc argv = main p argc' argv'.
Proof. reflexivity. Qed.

(** What a call changes is all that a later call can depend on: the
    value returned to [main] is dropped. *)
Lemma exec_main_same_effect {W : Type} (h1 h2 : handler W) (p : platform)
    (argc : int) (argv : list string) (w : W) :
  same_effect h1 h2 ->
  exec h1 (main p argc argv) w = exec h2 (main p argc argv) w.
Proof.
  intros E. rewrite main_tree. cbn [exec].
  repeat match goal with
         | |- context [ on_printf h1 ?fmt ?args ?x ] =>
             let H := fresh "H" in
             pose proof (E fmt args x) as H;
             destruct (on_printf h1 fmt args x), (on_printf h2 fmt args x);
             cbn [snd] in H; subst
         end.
  reflexivity.
Qed.

(** [main] asks nothing of the other services, whatever the library. *)
Lemma main_requests {W : Type} (h : handler W) (p : platform)
    (argc : int) (argv : list string) (w : W) :
  requests h (main p argc argv) w = [].
Proof.
  rewrite main_tree. cbn [requests]. call_results. reflexivity.
Qed.

(** Not every program leaves the environment alone, and not every
    program writes the same text whatever the environment is. *)
Example writes_file_persists :
  requests hosted writes_file fresh = [Fwrite "test.db" "page0"] /\
  files (outside (snd (exec hosted writes_file fresh))) = [("test.db", "page0")] /\
  files (outside fresh) = [].
Proof. repeat split. Qed.

Example prints_time_varies :
  submitted hosted prints_time fresh = [Some "0"] /\
  submitted hosted prints_time fresh_busy = [Some "1700000000"].
Proof. split; reflexivity. Qed.

Lemma run_closed_returns (p : platform) (argc : int) (argv : list string)
    (out : string) (a : ambient) :
  returned hosted (main p argc argv)
    {| stdout_open := false; stdout := out; outside := a |} =
  [EOF; EOF; EOF; EOF].
Proof.
  unfold returned. rewrite main_tree. cbn [calls hosted on_printf].
  unfold hosted_printf.
  rewrite vformat_int, write_stdout_closed.
  rewrite vformat_int_ptr, write_stdout_closed.
  rewrite vformat_uint8_t, write_stdout_closed.
  rewrite vformat_uint32_t, write_stdout_closed.
  reflexivity.
Qed.

(* ================================================================== *)
(** ** The report, read back *)

Lemma size_line_app (type_name : string) (n : size_t) (rest : string) :
  size_line type_name n ++ rest =
  ("sizeof(" ++ type_name ++ ") = " ++ decimal n) ++ String LF rest.
Proof.
  unfold size_line. rewrite !append_assoc. reflexivity.
Qed.

Lemma size_line_nl (type_name : string) (n : size_t) :
  size_line type_name n = ("sizeof(" ++ type_name ++ ") = " ++ decimal n) ++ nl.
Proof.
  unfold size_line, nl. rewrite !append_assoc. reflexivity.
Qed.

Lemma lines_size_line (type_name : string) (n : size_t) (rest : string) :
  no_newline type_name = true ->
  lines (size_line type_name n ++ rest) =
  ("sizeof(" ++ type_name ++ ") = " ++ decimal n) :: lines rest.
Proof.
  intros H. rewrite size_line_app. apply lines_cons.
  rewrite !no_newline_app, H, decimal_no_newline. reflexivity.
Qed.

Lemma report_lines (p : platform) :
  lines (report p) =
  [ "sizeof(int) = " ++ decimal (sizeof p Tint);
    "sizeof(int*) = " ++ decimal (sizeof p (Tpointer Tint));
    "sizeof(uint8_t) = " ++ decimal (sizeof p Tuint8_t);
    "sizeof(uint32_t) = " ++ decimal (sizeof p Tuint32_t) ].
Proof.
  unfold report.
  rewrite <- (append_nil_r (size_line "uint32_t" _)).
  now rewrite !lines_size_line.
Qed.

Lemma scan_size_prefixed (prefix : string) (n : size_t) :
  after_equals (prefix ++ decimal n) = Some (decimal n) ->
  scan_size (prefix ++ decimal n) = Some n.
Proof.
  intros E. unfold scan_size. rewrite E. apply scan_decimal.
Qed.

Lemma report_scanned (p : platform) :
  map scan_size (lines (report p)) =
  [ Some (sizeof p Tint); Some (sizeof p (Tpointer Tint));
    Some (sizeof p Tuint8_t); Some (sizeof p Tuint32_t) ].
Proof.
  rewrite report_lines. cbn [map].
  rewrite (scan_size_prefixed "sizeof(int) = ") by reflexivity.
  rewrite (scan_size_prefixed "sizeof(int*) = ") by reflexivity.
  rewrite (scan_size_prefixed "sizeof(uint8_t) = ") by reflexivity.
  rewrite (scan_size_prefixed "sizeof(uint32_t) = ") by reflexivity.
  reflexivity.
Qed.

Lemma size_line_form (type_name : string) (n : size_t) :
  line_of_form type_name ("sizeof(" ++ type_name ++ ") = " ++ decimal n).
Proof.
  exists (decimal n). split; [apply decimal_is_number | reflexivity].
Qed.

(* ================================================================== *)
(** ** Conforming platforms *)

Lemma lp64_conforming : conforming lp64.
Proof.
  constructor; unfold fills; cbn; intros; lia.
Qed.

Lemma ilp32_conforming : conforming ilp32.
Proof.
  constructor; unfold fills; cbn; intros; lia.
Qed.

(** Exact-width types leave no freedom: a byte has 8 bits, [uint8_t] is
    one byte and [uint32_t] four. *)
Lemma conforming_exact_sizes (p : platform) :
  conforming p ->
  CHAR_BIT p = 8%N /\ sizeof p Tuint8_t = 1%N /\ sizeof p Tuint32_t = 4%N.
Proof.
  intros [cb _ _ f8 w8 p8 f32 w32 p32 _].
  unfold fills in f8, f32. rewrite w8, p8 in f8. rewrite w32, p32 in f32.
  cbn [sizeof].
  assert (s8 : size (uint8_layout p) = 1%N) by nia.
  rewrite s8 in f8.
  assert (c8 : CHAR_BIT p = 8%N) by lia.
  rewrite c8 in f32. repeat split; lia.
Qed.

Lemma report_text (p : platform) :
  report p =
  ("sizeof(int) = " ++ decimal (sizeof p Tint)) ++ nl ++
  ("sizeof(int*) = " ++ decimal (sizeof p (Tpointer Tint))) ++ nl ++
  ("sizeof(uint8_t) = " ++ decimal (sizeof p Tuint8_t)) ++ nl ++
  ("sizeof(uint32_t) = " ++ decimal (sizeof p Tuint32_t)) ++ nl.
Proof.
  unfold report.
  rewrite <- (append_nil_r (size_line "uint32_t" _)).
  rewrite !size_line_app. reflexivity.
Qed.

(* ================================================================== *)
(** ** Properties of the program *)

(** C1. On every run, whatever the command-line arguments, the program
    hands the output facility exactly four texts, in a fixed order: a
    line of the form "sizeof(int) = N", then one for the pointer to int,
    then "sizeof(uint8_t) = N", then "sizeof(uint32_t) = N".  On a
    standard output that takes them, standard output grows by exactly
    these four lines and by nothing else. *)
Theorem four_lines_in_fixed_order (p : platform) :
  exists l1 l2 l3 l4 : string,
    line_of_form "int" l1 /\ line_of_form "int*" l2 /\
    line_of_form "uint8_t" l3 /\ line_of_form "uint32_t" l4 /\
    lines (l1 ++ nl ++ l2 ++ nl ++ l3 ++ nl ++ l4 ++ nl) = [l1; l2; l3; l4] /\
    forall (argc : int) (argv : list string),
      (forall (W : Type) (h : handler W) (w : W),
          submitted h (main p argc argv) w =
          [Some (l1 ++ nl); Some (l2 ++ nl); Some (l3 ++ nl); Some (l4 ++ nl)]) /\
      (forall w : world,
          stdout_open w = true ->
          run p argc argv w =
          (EXIT_SUCCESS,
           {| stdout_open := true;
              stdout := stdout w ++ l1 ++ nl ++ l2 ++ nl ++ l3 ++ nl ++ l4 ++ nl;
              outside := outside w |})).
Proof.
  exists ("sizeof(int) = " ++ decimal (sizeof p Tint)),
         ("sizeof(int*) = " ++ decimal (sizeof p (Tpointer Tint))),
         ("sizeof(uint8_t) = " ++ decimal (sizeof p Tuint8_t)),
         ("sizeof(uint32_t) = " ++ decimal (sizeof p Tuint32_t)).
  split; [exact (size_line_form "int" _)|].
  split; [exact (size_line_form "int*" _)|].
  split; [exact (size_line_form "uint8_t" _)|].
  split; [exact (size_line_form "uint32_t" _)|].
  split; [rewrite <- report_text; apply report_lines|].
  intros argc argv. split.
  - intros W h w. rewrite main_submitted.
    rewrite !size_line_nl. reflexivity.
  - intros [o out a]. cbn [stdout_open stdout outside]. intros ->.
    rewrite run_open, report_text. reflexivity.
Qed.

Lemma four_lines_in_fixed_order_witness :
  stdout_open fresh = true /\
  exists l1 l2 l3 l4 : string,
    run lp64 4%Z some_args fresh =
    (EXIT_SUCCESS,
     {| stdout_open := true;
        stdout := stdout fresh ++ l1 ++ nl ++ l2 ++ nl ++ l3 ++ nl ++ l4 ++ nl;
        outside := outside fresh |}).
Proof.
  split; [reflexivity|].
  destruct (four_lines_in_fixed_order lp64)
    as (l1 & l2 & l3 & l4 & _ & _ & _ & _ & _ & H).
  exists l1, l2, l3, l4.
  apply (proj2 (H 4%Z some_args)). reflexivity.
Defined.

(** C2. On every target platform, the four numbers printed are that
    platform's sizes of int, of pointer to int, of uint8_t and of
    uint32_t, in this order: reading the numbers back from the four
    lines written gives the values of the four sizeof expressions. *)
Theorem printed_sizes_are_platform_sizes (p : platform) (argc : int)
    (argv : list string) (w : world) :
  stdout_open w = true ->
  stdout (snd (run p argc argv w)) = stdout w ++ report p /\
  map scan_size (lines (report p)) =
  [ Some (sizeof p Tint); Some (sizeof p (Tpointer Tint));
    Some (sizeof p Tuint8_t); Some (sizeof p Tuint32_t) ].
Proof.
  destruct w as [o out a]. cbn [stdout_open stdout]. intros ->.
  rewrite run_open. split; [reflexivity | apply report_scanned].
Qed.

Lemma printed_sizes_are_platform_sizes_witness :
  stdout_open fresh = true /\
  stdout (snd (run ilp32 1%Z no_args fresh)) = stdout fresh ++ report ilp32 /\
  map scan_size (lines (report ilp32)) = [Some 4%N; Some 4%N; Some 1%N; Some 4%N].
Proof.
  split; [reflexivity|].
  apply (printed_sizes_are_platform_sizes ilp32 1%Z no_args fresh).
  reflexivity.
Defined.

(** C3. Run with no arguments on the LP64 data model, the program
    prints exactly four lines, each ended by a line feed (byte 10):
    "sizeof(int) = 4", the pointer line with 8, "sizeof(uint8_t) = 1"
    and "sizeof(uint32_t) = 4". *)
Theorem lp64_output (w : world) :
  stdout_open w = true ->
  run lp64 1%Z no_args w =
  (EXIT_SUCCESS,
   {| stdout_open := true;
      stdout := stdout w ++
        "sizeof(int) = 4" ++ String (ascii_of_nat 10)
        ("sizeof(int*) = 8" ++ String (ascii_of_nat 10)
        ("sizeof(uint8_t) = 1" ++ String (ascii_of_nat 10)
        ("sizeof(uint32_t) = 4" ++ String (ascii_of_nat 10) EmptyString)));
      outside := outside w |}) /\
  lines ("sizeof(int) = 4" ++ String (ascii_of_nat 10)
        ("sizeof(int*) = 8" ++ String (ascii_of_nat 10)
        ("sizeof(uint8_t) = 1" ++ String (ascii_of_nat 10)
        ("sizeof(uint32_t) = 4" ++ String (ascii_of_nat 10) EmptyString)))) =
  [ "sizeof(int) = 4"; "sizeof(int*) = 8";
    "sizeof(uint8_t) = 1"; "sizeof(uint32_t) = 4" ].
Proof.
  destruct w as [o out a]. cbn [stdout_open stdout outside]. intros ->.
  rewrite run_open. split; reflexivity.
Qed.

Lemma lp64_output_witness :
  stdout_open fresh = true /\
  run lp64 1%Z no_args fresh =
  (EXIT_SUCCESS,
   {| stdout_open := true;
      stdout := stdout fresh ++
        "sizeof(int) = 4" ++ String (ascii_of_nat 10)
        ("sizeof(int*) = 8" ++ String (ascii_of_nat 10)
        ("sizeof(uint8_t) = 1" ++ String (ascii_of_nat 10)
        ("sizeof(uint32_t) = 4" ++ String (ascii_of_nat 10) EmptyString)));
      outside := outside fresh |}).
Proof.
  split; [reflexivity | exact (proj1 (lp64_output fresh eq_refl))].
Defined.

(** C4. On every run, whatever the arguments and whatever the output
    facility does, the entry point returns 0, the success status. *)
Theorem exit_status_is_success (p : platform) (argc : int)
    (argv : list string) :
  (forall w : world, fst (run p argc argv w) = EXIT_SUCCESS) /\
  (forall (W : Type) (h : handler W) (w : W),
      fst (exec h (main p argc argv) w) = EXIT_SUCCESS) /\
  EXIT_SUCCESS = 0%Z.
Proof.
  repeat split; intros; apply exec_main_status.
Qed.

(** C5. The program always terminates: for any arguments the entry
    point is a loop-free sequence of exactly four output calls, and
    against any output facility that returns from each call the run
    completes with a result after those four calls. *)
Theorem main_terminates (p : platform) (argc : int) (argv : list string) :
  straight_line 4 (main p argc argv) /\
  forall (W : Type) (h : handler W) (w : W),
    (exists (status : int) (w' : W),
        exec h (main p argc argv) w = (status, w')) /\
    List.length (calls h (main p argc argv) w) = 4%nat.
Proof.
  split; [apply main_straight_line|].
  intros W h w. split; [|apply main_four_calls].
  destruct (exec h (main p argc argv) w) as [status w'] eqn:E.
  now exists status, w'.
Qed.

(** C6. The command-line arguments are accepted and never used: on the
    same platform and from the same state, a run with any arguments
    writes the same standard output and exits with the same status as
    a run with none. *)
Theorem arguments_unused (p : platform) (argc : int) (argv : list string)
    (w : world) :
  main p argc argv = main p 1%Z no_args /\
  stdout (snd (run p argc argv w)) = stdout (snd (run p 1%Z no_args w)) /\
  fst (run p argc argv w) = fst (run p 1%Z no_args w).
Proof.
  unfold run. rewrite (main_ignores_args p argc 1%Z argv no_args).
  repeat split.
Qed.

(** C7. Output failures are neither detected nor handled: what a call
    of the output facility returns never influences the run, so two
    facilities with the same effects and different return values give
    the same run; and when standard output is closed, every one of the
    four calls fails and the exit status is still success. *)
Theorem output_failures_unobserved (p : platform) (argc : int)
    (argv : list string) :
  (forall (W : Type) (h1 h2 : handler W) (w : W),
      same_effect h1 h2 ->
      exec h1 (main p argc argv) w = exec h2 (main p argc argv) w) /\
  (forall (W : Type) (h : handler W) (w : W),
      fst (exec h (main p argc argv) w) = EXIT_SUCCESS) /\
  (forall w : world,
      stdout_open w = false ->
      returned hosted (main p argc argv) w = [EOF; EOF; EOF; EOF] /\
      run p argc argv w = (EXIT_SUCCESS, w)).
Proof.
  repeat split.
  - intros W h1 h2 w E. now apply exec_main_same_effect.
  - intros. apply exec_main_status.
  - destruct w as [o out a]. cbn [stdout_open] in H. subst o.
    apply run_closed_returns.
  - destruct w as [o out a]. cbn [stdout_open] in H. subst o.
    apply run_closed.
Qed.

Lemma output_failures_unobserved_witness :
  (same_effect failing boasting /\
   exec failing (main lp64 1%Z no_args) closed =
   exec boasting (main lp64 1%Z no_args) closed) /\
  stdout_open closed = false /\
  returned hosted (main lp64 1%Z no_args) closed = [EOF; EOF; EOF; EOF] /\
  run lp64 1%Z no_args closed = (0%Z, closed).
Proof.
  pose proof (output_failures_unobserved lp64 1%Z no_args) as (H1 & _ & H3).
  assert (E : same_effect failing boasting)
    by (intros fmt args w; reflexivity).
  split; [split; [exact E | exact (H1 world _ _ closed E)] |].
  split; [reflexivity | apply H3; reflexivity].
Defined.

(** C8. The only effect of the program is on standard output.  Under
    any library and in any state it calls no service other than printf:
    it reads no environment variable, no input and no file, writes no
    file, and asks for neither the time nor a random number.  On a
    hosted library the rest of the process environment (standard input,
    environment variables, files, clock, random source) is the same
    after the run as before, and what reaches standard output depends
    on none of it, nor on the command-line arguments. *)
Theorem only_stdout_changes (p : platform) :
  (forall (argc : int) (argv : list string)
          (W : Type) (h : handler W) (w : W),
      requests h (main p argc argv) w = []) /\
  (forall (is_open : bool) (out : string),
    exists out' : string,
      forall (argc : int) (argv : list string) (a : ambient),
        run p argc argv
          {| stdout_open := is_open; stdout := out; outside := a |} =
        (EXIT_SUCCESS,
         {| stdout_open := is_open; stdout := out'; outside := a |})).
Proof.
  split.
  - intros. apply main_requests.
  - intros [|] out.
    + exists (out ++ report p). intros. apply run_open.
    + exists out. intros. apply run_closed.
Qed.

(** C9. On every conforming platform on which the program compiles,
    the third size printed is exactly 1 and the fourth exactly 4:
    exact-width types have no padding, and a byte has at least 8 bits. *)
Theorem exact_width_sizes (p : platform) (argc : int) (argv : list string)
    (w : world) :
  conforming p ->
  stdout_open w = true ->
  sizeof p Tuint8_t = 1%N /\ sizeof p Tuint32_t = 4%N /\
  exists text : string,
    stdout (snd (run p argc argv w)) = stdout w ++ text /\
    nth_error (lines text) 2 = Some "sizeof(uint8_t) = 1" /\
    nth_error (lines text) 3 = Some "sizeof(uint32_t) = 4" /\
    List.length (lines text) = 4%nat.
Proof.
  intros C Hopen.
  destruct (conforming_exact_sizes p C) as (_ & s8 & s32).
  split; [exact s8|]. split; [exact s32|].
  destruct w as [o out a]. cbn [stdout_open stdout] in *. subst o.
  exists (report p). rewrite run_open, report_lines, s8, s32.
  repeat split.
Qed.

Lemma exact_width_sizes_witness :
  conforming ilp32 /\ stdout_open fresh = true /\
  sizeof ilp32 Tuint8_t = 1%N /\ sizeof ilp32 Tuint32_t = 4%N /\
  exists text : string,
    stdout (snd (run ilp32 1%Z no_args fresh)) = stdout fresh ++ text /\
    nth_error (lines text) 2 = Some "sizeof(uint8_t) = 1" /\
    nth_error (lines text) 3 = Some "sizeof(uint32_t) = 4" /\
    List.length (lines text) = 4%nat.
Proof.
  split; [exact ilp32_conforming|]. split; [reflexivity|].
  apply (exact_width_sizes ilp32 1%Z no_args fresh ilp32_conforming).
  reflexivity.
Defined.

(** C10. The program is deterministic: in any two runs on the same
    platform with the same arguments, whatever the two libraries and
    the two states of the world are (clock, random source, environment,
    files, input), the texts written to standard output and the exit
    statuses are the same.  On a hosted library the bytes that reach
    standard output are one fixed text when the stream is open, and
    none when it is not. *)
Theorem run_deterministic (p : platform) (argc : int) (argv : list string) :
  (forall (W1 W2 : Type) (h1 : handler W1) (h2 : handler W2)
          (w1 : W1) (w2 : W2),
      submitted h1 (main p argc argv) w1 = submitted h2 (main p argc argv) w2 /\
      fst (exec h1 (main p argc argv) w1) = fst (exec h2 (main p argc argv) w2)) /\
  (exists text : string,
    forall w : world,
      run p argc argv w =
      (EXIT_SUCCESS,
       {| stdout_open := stdout_open w;
          stdout := stdout w ++ (if stdout_open w then text else "");
          outside := outside w |})).
Proof.
  split.
  - intros. now rewrite !main_submitted, !exec_main_status.
  - exists (report p). intros [[|] out a]; cbn [stdout_open stdout outside].
    + apply run_open.
    + rewrite append_nil_r. apply run_closed.
Qed.

(* ================================================================== *)
(** ** Further properties of the four calls *)

Lemma append_inv_head (a b c : string) : a ++ b = a ++ c -> b = c.
Proof.
  induction a as [|x a IH]; simpl; intros H; [exact H|].
  injection H as H. auto.
Qed.

Lemma report_of_sizes (p q : platform) :
  sizeof p Tint = sizeof q Tint ->
  sizeof p (Tpointer Tint) = sizeof q (Tpointer Tint) ->
  sizeof p Tuint8_t = sizeof q Tuint8_t ->
  sizeof p Tuint32_t = sizeof q Tuint32_t ->
  report p = report q.
Proof.
  unfold report. now intros -> -> -> ->.
Qed.

Lemma report_sizes_inj (p q : platform) :
  report p = report q ->
  sizeof p Tint = sizeof q Tint /\
  sizeof p (Tpointer Tint) = sizeof q (Tpointer Tint) /\
  sizeof p Tuint8_t = sizeof q Tuint8_t /\
  sizeof p Tuint32_t = sizeof q Tuint32_t.
Proof.
  intros E.
  pose proof (report_scanned p) as Hp. rewrite E, report_scanned in Hp.
  injection Hp as H1 H2 H3 H4. repeat split; symmetry; assumption.
Qed.

(** On a conforming platform [int] takes at least two bytes. *)
Lemma conforming_int_size (p : platform) :
  conforming p -> (2 <= sizeof p Tint)%N.
Proof.
  intros C. destruct (conforming_exact_sizes p C) as (c8 & _ & _).
  destruct C as [_ fi wi _ _ _ _ _ _ _].
  unfold fills in fi. rewrite c8 in fi. cbn [sizeof]. lia.
Qed.

(** X1. The output identifies the sizes: started on the same open
    standard output, the runs for two targets write the same text
    exactly when the targets agree on the four sizes; arguments and
    the rest of the environment play no part. *)
Theorem output_identifies_sizes (p q : platform) (argc argc' : int)
    (argv argv' : list string) (out : string) (a a' : ambient) :
  stdout (snd (run p argc argv
                 {| stdout_open := true; stdout := out; outside := a |})) =
  stdout (snd (run q argc' argv'
                 {| stdout_open := true; stdout := out; outside := a' |}))
  <->
  sizeof p Tint = sizeof q Tint /\
  sizeof p (Tpointer Tint) = sizeof q (Tpointer Tint) /\
  sizeof p Tuint8_t = sizeof q Tuint8_t /\
  sizeof p Tuint32_t = sizeof q Tuint32_t.
Proof.
  rewrite !run_open. cbn [snd stdout]. split.
  - intros E. apply report_sizes_inj. exact (append_inv_head _ _ _ E).
  - intros (E1 & E2 & E3 & E4). f_equal. now apply report_of_sizes.
Qed.

(** X2. The sizes noted in the comments that follow the four calls
    (4, 8, 1, 4) are what a conforming target prints exactly when its
    int has 4 bytes and its pointer to int has 8. *)
Theorem commented_sizes_iff (p : platform) (argc : int) (argv : list string)
    (out : string) (a : ambient) :
  conforming p ->
  stdout (snd (run p argc argv
                 {| stdout_open := true; stdout := out; outside := a |})) =
  out ++ c_str "sizeof(int) = 4\nsizeof(int*) = 8\nsizeof(uint8_t) = 1\nsizeof(uint32_t) = 4\n"
  <->
  sizeof p Tint = 4%N /\ sizeof p (Tpointer Tint) = 8%N.
Proof.
  intros C. destruct (conforming_exact_sizes p C) as (_ & s8 & s32).
  rewrite run_open. cbn [snd stdout].
  change (c_str "sizeof(int) = 4\nsizeof(int*) = 8\nsizeof(uint8_t) = 1\nsizeof(uint32_t) = 4\n")
    with (report lp64).
  split.
  - intros E. apply append_inv_head, report_sizes_inj in E.
    destruct E as (E1 & E2 & _). split; [exact E1 | exact E2].
  - intros (E1 & E2). f_equal.
    apply report_of_sizes; [exact E1 | exact E2 | exact s8 | exact s32].
Qed.

Lemma commented_sizes_iff_witness :
  conforming ilp32 /\
  (stdout (snd (run ilp32 1%Z no_args
                  {| stdout_open := true; stdout := ""; outside := quiet |})) =
   "" ++ c_str "sizeof(int) = 4\nsizeof(int*) = 8\nsizeof(uint8_t) = 1\nsizeof(uint32_t) = 4\n"
   <->
   sizeof ilp32 Tint = 4%N /\ sizeof ilp32 (Tpointer Tint) = 8%N).
Proof.
  split; [exact ilp32_conforming|].
  exact (commented_sizes_iff ilp32 1%Z no_args "" quiet ilp32_conforming).
Defined.

(** X3. On a conforming target no line reports a size of zero: read
    back from the output, the first number is at least 2 and the second
    at least 1. *)
Theorem conforming_sizes_positive (p : platform) (argc : int)
    (argv : list string) (out : string) (a : ambient) :
  conforming p ->
  exists n1 n2 : size_t,
    (2 <= n1)%N /\ (1 <= n2)%N /\
    stdout (snd (run p argc argv
                   {| stdout_open := true; stdout := out; outside := a |})) =
    out ++ report p /\
    map scan_size (lines (report p)) = [Some n1; Some n2; Some 1%N; Some 4%N].
Proof.
  intros C. destruct (conforming_exact_sizes p C) as (_ & s8 & s32).
  exists (sizeof p Tint), (sizeof p (Tpointer Tint)).
  split; [now apply conforming_int_size|].
  split; [apply (pointer_size_pos p C)|].
  rewrite run_open, report_scanned, s8, s32. split; reflexivity.
Qed.

Lemma conforming_sizes_positive_witness :
  conforming lp64 /\
  exists n1 n2 : size_t,
    (2 <= n1)%N /\ (1 <= n2)%N /\
    stdout (snd (run lp64 1%Z no_args
                   {| stdout_open := true; stdout := ""; outside := quiet |})) =
    "" ++ report lp64 /\
    map scan_size (lines (report lp64)) = [Some n1; Some n2; Some 1%N; Some 4%N].
Proof.
  split; [exact lp64_conforming|].
  exact (conforming_sizes_positive lp64 1%Z no_args "" quiet lp64_conforming).
Defined.
